(** * The feedback board page (src/app/[slug]/board/page.tsx)

    A shallow embedding of the board page component: its view-model
    mapper, the posts query it builds, the load sequence with its
    failure paths, the client-side search filter and the vote-change
    patch.  JavaScript strings are [string], numbers are [Z], a value
    that may be [null] or [undefined] is an [option]. *)

From Stdlib Require Import ZArith String Ascii List Bool Lia.
From stdpp Require Import base list strings.
Import ListNotations.

Local Open Scope string_scope.
Local Open Scope Z_scope.

(** ** Data model *)

(** [interface Project] *)
Module Project.
Record t := mk { id : string; name : string; slug : string }.
End Project.

(** The row of [from('boards').select('id')]. *)
Module Board.
Record t := mk { id : string }.
End Board.

(** The closed set of workflow states of a post. *)
Module Status.
Inductive t := open | planned | in_progress | done | declined.
End Status.

(** [interface Post] *)
Module Post.
Record t := mk {
  id : string;
  title : string;
  description : option string;
  author_email : option string;
  status : Status.t;
  created_at : string;
  vote_count : Z;
  comment_count : Z;
  user_voted : bool
}.
End Post.

(** One element of an embedded aggregate, [{count: number}]; the field
    itself may be missing. *)
Module Aggregate.
Record t := mk { count : option Z }.
End Aggregate.

(** A row as the posts query delivers it ([Record<string, unknown>] read
    through the casts of the mapper).  The two aggregates arrive under the
    aliases [vote_count] and [comment_count]; each may be absent, empty, or
    hold absent elements. *)
Module RawRow.
Record t := mk {
  id : string;
  title : string;
  description : option string;
  author_email : option string;
  status : Status.t;
  created_at : string;
  vote_count : option (list (option Aggregate.t));
  comment_count : option (list (option Aggregate.t))
}.
End RawRow.

(** ** The view-model mapper (lines 157-167) *)

(** [(agg as Array<{count: number}>)?.[0]?.count] *)
Definition first_count (agg : option (list (option Aggregate.t))) : option Z :=
  match agg with
  | None => None
  | Some arr =>
      match arr !! 0%nat with
      | None => None
      | Some None => None
      | Some (Some row) => Aggregate.count row
      end
  end.

(** [c || 0] on a number that may be undefined: every falsy value, the
    number zero included, gives [0]. *)
Definition or_zero (c : option Z) : Z :=
  match c with
  | Some n => if n =? 0 then 0 else n
  | None => 0
  end.

(** The arrow function passed to [postsData?.map]. *)
Definition processPost (post : RawRow.t) : Post.t :=
  {| Post.id := RawRow.id post;
     Post.title := RawRow.title post;
     Post.description := RawRow.description post;
     Post.author_email := RawRow.author_email post;
     Post.status := RawRow.status post;
     Post.created_at := RawRow.created_at post;
     Post.vote_count := or_zero (first_count (RawRow.vote_count post));
     Post.comment_count := or_zero (first_count (RawRow.comment_count post));
     Post.user_voted := false |}.

(** [postsData?.map(...) || []] *)
Definition processedPosts (postsData : option (list RawRow.t)) : list Post.t :=
  match postsData with
  | Some rows => map processPost rows
  | None => []
  end.

(** ** The query builder of the database client *)

Inductive Filter :=
| FilterEq (column value : string)      (* .eq(column, value) *)
| FilterIsNull (column : string).       (* .is(column, null) *)

Record Query := mkQuery {
  table : string;
  columns : string;
  filters : list Filter;
  orders : list (string * bool);        (* column, ascending *)
  single_row : bool
}.

Definition from (t : string) : Query :=
  {| table := t; columns := ""; filters := []; orders := []; single_row := false |}.

Definition select (cols : string) (q : Query) : Query :=
  {| table := table q; columns := cols; filters := filters q;
     orders := orders q; single_row := single_row q |}.

Definition eq_ (column value : string) (q : Query) : Query :=
  {| table := table q; columns := columns q;
     filters := filters q ++ [FilterEq column value];
     orders := orders q; single_row := single_row q |}.

Definition is_null (column : string) (q : Query) : Query :=
  {| table := table q; columns := columns q;
     filters := filters q ++ [FilterIsNull column];
     orders := orders q; single_row := single_row q |}.

Definition order (column : string) (ascending : bool) (q : Query) : Query :=
  {| table := table q; columns := columns q; filters := filters q;
     orders := orders q ++ [(column, ascending)]; single_row := single_row q |}.

Definition single (q : Query) : Query :=
  {| table := table q; columns := columns q; filters := filters q;
     orders := orders q; single_row := true |}.

(** Lines 95-99. *)
Definition projectQuery (slug : string) : Query :=
  single (eq_ "slug" slug (select "*" (from "projects"))).

(** Lines 110-114. *)
Definition boardQuery (project_id : string) : Query :=
  single (eq_ "project_id" project_id (select "id" (from "boards"))).

(** Lines 124-146.  The select list is the template literal with its
    layout white space removed, as the client sends it. *)
Definition postsQuery (board_id statusFilter sortBy : string) : Query :=
  let postsQuery :=
    is_null "duplicate_of"
      (eq_ "board_id" board_id
         (select "*,vote_count:votes(count),comment_count:comments(count)"
            (from "posts"))) in
  let postsQuery :=
    if negb (String.eqb statusFilter "all")
    then eq_ "status" statusFilter postsQuery
    else postsQuery in
  if String.eqb sortBy "votes" then order "vote_count" false postsQuery
  else if String.eqb sortBy "newest" then order "created_at" false postsQuery
  else if String.eqb sortBy "oldest" then order "created_at" true postsQuery
  else postsQuery.

(** ** What the database client answers *)

Record PgError := mkPgError { code : string; message : string }.

(** The object a query resolves to, [{ data, error }]. *)
Module Response.
Record t (A : Type) := mk { data : option A; error : option PgError }.
Arguments mk {A} _ _.
Arguments data {A} _.
Arguments error {A} _.
End Response.

(** An awaited promise either is fulfilled with a value or is rejected,
    which throws at the [await]. *)
Inductive Awaited (A : Type) :=
| Fulfilled (r : A)
| Rejected (reason : string).
Arguments Fulfilled {A} r.
Arguments Rejected {A} reason.

(** The client as the page uses it: one answer per query and table. *)
Record SupabaseClient := mkClient {
  fetch_project : Query -> Awaited (Response.t Project.t);
  fetch_board : Query -> Awaited (Response.t Board.t);
  fetch_posts : Query -> Awaited (Response.t (list RawRow.t))
}.

(** What the server found for a request: the selected rows, or a failure. *)
Inductive Fetched (A : Type) :=
| Rows (rs : list A)
| Failure (e : PgError).
Arguments Rows {A} rs.
Arguments Failure {A} e.

Definition no_single_row : PgError :=
  {| code := "PGRST116";
     message := "JSON object requested, multiple (or no) rows returned" |}.

(** The response of a query that ends in [.single()]: exactly one row is
    the data, any other number of rows is an error with null data. *)
Definition respond_single {A : Type} (f : Fetched A) : Response.t A :=
  match f with
  | Rows [r] => Response.mk (Some r) None
  | Rows _ => Response.mk None (Some no_single_row)
  | Failure e => Response.mk None (Some e)
  end.

(** ** Page state, effects, and the monad of the component's handlers *)

(** The [useState] slots of [BoardPage]. *)
Record PageState := mkState {
  project : option Project.t;
  posts : list Post.t;
  loading : bool;
  error : string;
  searchTerm : string;
  statusFilter : string;
  sortBy : string;
  showPostForm : bool;
  boardId : option string
}.

(** The state on mount (lines 65-73). *)
Definition initialState : PageState :=
  {| project := None; posts := []; loading := true; error := "";
     searchTerm := ""; statusFilter := "all"; sortBy := "votes";
     showPostForm := false; boardId := None |}.

(** What the page does to its collaborators, in the order it happens. *)
Inductive Event :=
| ToastError (msg : string)
| ConsoleError (msg : string)
| RouterPush (path : string)
| Issued (q : Query).

Record World := mkWorld { state : PageState; trace : list Event }.

(** How a block of statements ends. *)
Inductive Completion (A : Type) :=
| Normal (a : A)
| Return
| Throw (exn : string).
Arguments Normal {A} a.
Arguments Return {A}.
Arguments Throw {A} exn.

Definition M (A : Type) : Type := World -> Completion A * World.

Definition ret {A : Type} (a : A) : M A := fun w => (Normal a, w).

Definition bind {A B : Type} (m : M A) (k : A -> M B) : M B :=
  fun w =>
    match m w with
    | (Normal a, w') => k a w'
    | (Return, w') => (Return, w')
    | (Throw e, w') => (Throw e, w')
    end.

Notation "'let*' x := m 'in' k" := (bind m (fun x => k))
  (at level 10, x name, m at level 100, k at level 200).
Notation "m ;; k" := (bind m (fun _ => k))
  (at level 100, k at level 200, right associativity).

Definition return_ {A : Type} : M A := fun w => (Return, w).
Definition throw {A : Type} (exn : string) : M A := fun w => (Throw exn, w).

(** [try { body } catch (e) { handler } finally { finalizer }] *)
Definition try_catch_finally (body : M unit) (handler : string -> M unit)
    (finalizer : M unit) : M unit :=
  fun w =>
    let (c, w1) :=
      match body w with
      | (Throw e, w') => handler e w'
      | r => r
      end in
    match finalizer w1 with
    | (Normal _, w2) => (c, w2)
    | r => r
    end.

Definition emit (e : Event) : M unit :=
  fun w => (Normal tt, {| state := state w; trace := trace w ++ [e] |}).

Definition modify (f : PageState -> PageState) : M unit :=
  fun w => (Normal tt, {| state := f (state w); trace := trace w |}).

Definition get : M PageState := fun w => (Normal (state w), w).

Definition toast_error (msg : string) : M unit := emit (ToastError msg).
Definition console_error (msg : string) : M unit := emit (ConsoleError msg).
Definition router_push (path : string) : M unit := emit (RouterPush path).

(** [await query]: the request is issued, then its promise settles. *)
Definition await {A : Type} (run : Query -> Awaited A) (q : Query) : M A :=
  emit (Issued q) ;;
  match run q with
  | Fulfilled r => ret r
  | Rejected reason => throw reason
  end.

(** Reading a property of a value that may be null. *)
Definition property_of {A : Type} (o : option A) : M A :=
  match o with
  | Some a => ret a
  | None => throw "TypeError: Cannot read properties of null"
  end.

Definition setProject (p : option Project.t) : M unit :=
  modify (fun s =>
    {| project := p; posts := posts s; loading := loading s; error := error s;
       searchTerm := searchTerm s; statusFilter := statusFilter s;
       sortBy := sortBy s; showPostForm := showPostForm s; boardId := boardId s |}).

Definition updatePosts (f : list Post.t -> list Post.t) (s : PageState) : PageState :=
  {| project := project s; posts := f (posts s); loading := loading s;
     error := error s; searchTerm := searchTerm s; statusFilter := statusFilter s;
     sortBy := sortBy s; showPostForm := showPostForm s; boardId := boardId s |}.

Definition setPosts (ps : list Post.t) : M unit :=
  modify (updatePosts (fun _ => ps)).

Definition setLoading (b : bool) : M unit :=
  modify (fun s =>
    {| project := project s; posts := posts s; loading := b; error := error s;
       searchTerm := searchTerm s; statusFilter := statusFilter s;
       sortBy := sortBy s; showPostForm := showPostForm s; boardId := boardId s |}).

Definition setError (msg : string) : M unit :=
  modify (fun s =>
    {| project := project s; posts := posts s; loading := loading s; error := msg;
       searchTerm := searchTerm s; statusFilter := statusFilter s;
       sortBy := sortBy s; showPostForm := showPostForm s; boardId := boardId s |}).

Definition setBoardId (b : option string) : M unit :=
  modify (fun s =>
    {| project := project s; posts := posts s; loading := loading s;
       error := error s; searchTerm := searchTerm s; statusFilter := statusFilter s;
       sortBy := sortBy s; showPostForm := showPostForm s; boardId := b |}).

Definition setShowPostForm (b : bool) (s : PageState) : PageState :=
  {| project := project s; posts := posts s; loading := loading s;
     error := error s; searchTerm := searchTerm s; statusFilter := statusFilter s;
     sortBy := sortBy s; showPostForm := b; boardId := boardId s |}.

Definition setStatusFilter (v : string) (s : PageState) : PageState :=
  {| project := project s; posts := posts s; loading := loading s;
     error := error s; searchTerm := searchTerm s; statusFilter := v;
     sortBy := sortBy s; showPostForm := showPostForm s; boardId := boardId s |}.

Definition setSortBy (v : string) (s : PageState) : PageState :=
  {| project := project s; posts := posts s; loading := loading s;
     error := error s; searchTerm := searchTerm s; statusFilter := statusFilter s;
     sortBy := v; showPostForm := showPostForm s; boardId := boardId s |}.

Definition setSearchTerm (v : string) (s : PageState) : PageState :=
  {| project := project s; posts := posts s; loading := loading s;
     error := error s; searchTerm := v; statusFilter := statusFilter s;
     sortBy := sortBy s; showPostForm := showPostForm s; boardId := boardId s |}.

(** ** The load sequence (lines 84-177) *)

(** [supabase] is the client, null when none is configured; [slug] is
    [params.slug].  The status filter and the sort order are the values of
    the render that created the callback. *)
Definition loadProjectAndPosts (supabase : option SupabaseClient) (slug : string)
  : M unit :=
  let* s0 := get in
  match supabase with
  | None =>
      setError "Database connection not available. Please refresh the page." ;;
      setLoading false ;;
      return_
  | Some supabase =>
      try_catch_finally
        (setLoading true ;;
         let* projectResponse := await (fetch_project supabase) (projectQuery slug) in
         let projectData := Response.data projectResponse in
         match Response.error projectResponse with
         | Some _ =>
             toast_error "Project not found" ;;
             router_push "/" ;;
             return_
         | None =>
             setProject projectData ;;
             let* projectRow := property_of projectData in
             let* boardResponse :=
               await (fetch_board supabase) (boardQuery (Project.id projectRow)) in
             match Response.error boardResponse, Response.data boardResponse with
             | None, Some boardData =>
                 setBoardId (Some (Board.id boardData)) ;;
                 let* postsResponse :=
                   await (fetch_posts supabase)
                     (postsQuery (Board.id boardData) (statusFilter s0) (sortBy s0)) in
                 match Response.error postsResponse with
                 | Some _ =>
                     console_error "Error loading posts:" ;;
                     toast_error "Error loading posts" ;;
                     return_
                 | None =>
                     setPosts (processedPosts (Response.data postsResponse))
                 end
             | _, _ =>
                 toast_error "Board not found" ;;
                 return_
             end
         end)
        (fun _ =>
           console_error "Error:" ;;
           toast_error "Something went wrong")
        (setLoading false)
  end.

(** The world once the sequence has run to its end. *)
Definition load (supabase : option SupabaseClient) (slug : string) (w : World)
  : World :=
  snd (loadProjectAndPosts supabase slug w).

(** ** What is rendered *)

(** The mount condition of the submission form (line 450):
    [showPostForm && project && boardId]; the empty string is falsy. *)
Definition submissionFormMounted (s : PageState) : bool :=
  showPostForm s
  && match project s with Some _ => true | None => false end
  && match boardId s with
     | Some b => negb (String.eqb b "")
     | None => false
     end.


(** ** The client-side search filter (lines 185-188) *)

(** [s.startsWith(needle)], the test [includes] makes at each position. *)
Fixpoint startsWith (s needle : string) {struct needle} : bool :=
  match needle, s with
  | EmptyString, _ => true
  | String c needle', String d s' => Ascii.eqb c d && startsWith s' needle'
  | String _ _, EmptyString => false
  end.

(** [s.includes(needle)]: [needle] occurs in [s] at some position. *)
Fixpoint includes (s needle : string) : bool :=
  startsWith s needle
  || match s with
     | EmptyString => false
     | String _ s' => includes s' needle
     end.

Section Search.

(** [String.prototype.toLowerCase] of the runtime. *)
Variable toLowerCase : string -> string.

(** The predicate passed to [posts.filter].  [post.description?.…] is
    [undefined], hence falsy, when the description is absent. *)
Definition matchesSearch (searchTerm : string) (post : Post.t) : bool :=
  includes (toLowerCase (Post.title post)) (toLowerCase searchTerm)
  || match Post.description post with
     | Some description => includes (toLowerCase description) (toLowerCase searchTerm)
     | None => false
     end.

Definition filteredPosts (posts : list Post.t) (searchTerm : string) : list Post.t :=
  List.filter (matchesSearch searchTerm) posts.

(** The filter as each render evaluates it, from the current state. *)
Definition renderFilteredPosts : M (list Post.t) :=
  let* s := get in
  ret (filteredPosts (posts s) (searchTerm s)).

(** What the search is meant to select, after the specification: the
    needle occurs in the text once both are lower-cased. *)
Definition occurs_in (needle text : string) : Prop :=
  exists before after, text = before +:+ needle +:+ after.

Definition contains_ignoring_case (text needle : string) : Prop :=
  occurs_in (toLowerCase needle) (toLowerCase text).

Definition search_hit (searchTerm : string) (post : Post.t) : Prop :=
  contains_ignoring_case (Post.title post) searchTerm
  \/ exists description,
       Post.description post = Some description
       /\ contains_ignoring_case description searchTerm.

End Search.

(** Lower-casing of ASCII text, the part of [toLowerCase] that does not
    depend on Unicode tables. *)
Definition lowerAscii (c : ascii) : ascii :=
  let n := nat_of_ascii c in
  if (65 <=? n)%nat && (n <=? 90)%nat then ascii_of_nat (n + 32) else c.

Fixpoint asciiToLowerCase (s : string) : string :=
  match s with
  | EmptyString => EmptyString
  | String c s' => String (lowerAscii c) (asciiToLowerCase s')
  end.

(** ** The vote-change callback (lines 366-373) *)

(** [prev.map(p => p.id === post.id ? {...p, vote_count, user_voted} : p)] *)
Definition patchVote (newCount : Z) (userVoted : bool) (p : Post.t) : Post.t :=
  {| Post.id := Post.id p;
     Post.title := Post.title p;
     Post.description := Post.description p;
     Post.author_email := Post.author_email p;
     Post.status := Post.status p;
     Post.created_at := Post.created_at p;
     Post.vote_count := newCount;
     Post.comment_count := Post.comment_count p;
     Post.user_voted := userVoted |}.

Definition onVoteChange (postId : string) (newCount : Z) (userVoted : bool)
    (prev : list Post.t) : list Post.t :=
  map (fun p => if String.eqb (Post.id p) postId
                then patchVote newCount userVoted p
                else p)
      prev.

(** [setPosts(prev => ...)] on the page state. *)
Definition voteChanged (postId : string) (newCount : Z) (userVoted : bool)
    (s : PageState) : PageState :=
  updatePosts (onVoteChange postId newCount userVoted) s.

(** ** Sample data *)

Definition sampleRow : RawRow.t :=
  {| RawRow.id := "p1"; RawRow.title := "Dark Mode";
     RawRow.description := Some "Please add a dark theme";
     RawRow.author_email := Some "ann@example.com";
     RawRow.status := Status.open; RawRow.created_at := "2024-01-01T00:00:00Z";
     RawRow.vote_count := Some [Some (Aggregate.mk (Some 7))];
     RawRow.comment_count := Some [] |}.

Definition otherRow : RawRow.t :=
  {| RawRow.id := "p2"; RawRow.title := "Export to CSV";
     RawRow.description := None; RawRow.author_email := None;
     RawRow.status := Status.planned; RawRow.created_at := "2024-02-01T00:00:00Z";
     RawRow.vote_count := None;
     RawRow.comment_count := Some [Some (Aggregate.mk None)] |}.

Definition samplePosts : list Post.t := map processPost [sampleRow; otherRow].

Definition sampleProject : Project.t :=
  {| Project.id := "proj1"; Project.name := "Acme"; Project.slug := "acme" |}.

Definition sampleBoard : Board.t := {| Board.id := "b1" |}.

Definition transportError : PgError :=
  {| code := "500"; message := "internal error" |}.

(** A client for which every lookup succeeds. *)
Definition healthyClient : SupabaseClient :=
  {| fetch_project := fun _ => Fulfilled (respond_single (Rows [sampleProject]));
     fetch_board := fun _ => Fulfilled (respond_single (Rows [sampleBoard]));
     fetch_posts := fun _ => Fulfilled (Response.mk (Some [sampleRow; otherRow]) None) |}.

(** The project slug resolves to nothing. *)
Definition noProjectClient : SupabaseClient :=
  {| fetch_project := fun _ => Fulfilled (respond_single (Rows []));
     fetch_board := fetch_board healthyClient;
     fetch_posts := fetch_posts healthyClient |}.

(** The project resolves, the board lookup fails. *)
Definition noBoardClient : SupabaseClient :=
  {| fetch_project := fetch_project healthyClient;
     fetch_board := fun _ => Fulfilled (respond_single (Failure transportError));
     fetch_posts := fetch_posts healthyClient |}.

(** Project and board resolve, the posts query returns an error. *)
Definition postsErrorClient : SupabaseClient :=
  {| fetch_project := fetch_project healthyClient;
     fetch_board := fetch_board healthyClient;
     fetch_posts := fun _ => Fulfilled (Response.mk None (Some transportError)) |}.

(** Every request is rejected. *)
Definition rejectingClient : SupabaseClient :=
  {| fetch_project := fun _ => Rejected "fetch failed";
     fetch_board := fun _ => Rejected "fetch failed";
     fetch_posts := fun _ => Rejected "fetch failed" |}.

Definition initialWorld : World := {| state := initialState; trace := [] |}.

(** The page after a first successful load, with a fresh trace. *)
Definition loadedWorld : World :=
  {| state := state (load (Some healthyClient) "acme" initialWorld); trace := [] |}.

(** The loaded page after the user picks the status filter 'planned',
    which starts the load sequence again. *)
Definition reloadWorld : World :=
  {| state := setStatusFilter "planned" (state loadedWorld); trace := [] |}.

(** ** Signing out (lines 75-82) *)

(** [try { body } catch (e) { handler }] *)
Definition try_catch (body : M unit) (handler : string -> M unit) : M unit :=
  fun w =>
    match body w with
    | (Throw e, w') => handler e w'
    | r => r
    end.

(** [signOut] is the promise of the authentication hook's sign-out. *)
Definition handleSignOut (signOut : Awaited unit) : M unit :=
  try_catch
    (match signOut with
     | Fulfilled _ => ret tt
     | Rejected reason => throw reason
     end ;;
     router_push "/")
    (fun _ => console_error "Error signing out:").

(** ** The posts list as rendered (lines 191-206 and 328-458) *)

(** [statusConfig]: label and colour classes of the status badge. *)
Definition statusConfig (s : Status.t) : string * string :=
  match s with
  | Status.open => ("Open", "bg-blue-100 text-blue-800 border-blue-200")
  | Status.planned => ("Planned", "bg-yellow-100 text-yellow-800 border-yellow-200")
  | Status.in_progress =>
      ("In Progress", "bg-orange-100 text-orange-800 border-orange-200")
  | Status.done => ("Done", "bg-green-100 text-green-800 border-green-200")
  | Status.declined => ("Declined", "bg-red-100 text-red-800 border-red-200")
  end.

(** [s.split('@')[0]]: the text before the first ['@'], all of [s] when it
    has none. *)
Fixpoint beforeAt (s : string) : string :=
  match s with
  | EmptyString => EmptyString
  | String c s' => if Ascii.eqb c "@" then EmptyString else String c (beforeAt s')
  end.

(** [post.author_email ? post.author_email.split('@')[0] : 'Anonymous']
    (lines 412-415); the empty string is falsy. *)
Definition authorName (author_email : option string) : string :=
  match author_email with
  | Some email => if String.eqb email "" then "Anonymous" else beforeAt email
  | None => "Anonymous"
  end.

(** The route a card opens (line 356). *)
Definition postRoute (slug post_id : string) : string :=
  "/" +:+ slug +:+ "/post/" +:+ post_id.

(** What one card of the list shows (lines 353-434), the creation date
    apart. *)
Module Card.
Record t := mk {
  key : string;
  target : string;
  initialVoteCount : Z;
  initialUserVoted : bool;
  heading : string;
  badge : string * string;
  body : option string;
  author : string;
  comments : Z
}.
End Card.

Definition renderCard (slug : string) (post : Post.t) : Card.t :=
  {| Card.key := Post.id post;
     Card.target := postRoute slug (Post.id post);
     Card.initialVoteCount := Post.vote_count post;
     Card.initialUserVoted := Post.user_voted post;
     Card.heading := Post.title post;
     Card.badge := statusConfig (Post.status post);
     Card.body :=
       match Post.description post with
       | Some d => if String.eqb d "" then None else Some d
       | None => None
       end;
     Card.author := authorName (Post.author_email post);
     Card.comments := Post.comment_count post |}.

(** The posts region: the empty state, or one card per filtered post. *)
Inductive PostsRegion :=
| EmptyState
| Cards (cards : list Card.t).

(** The page: the loading skeleton, or the board with its optional error
    banner, posts region, 'Load More' button and submission form. *)
Inductive View :=
| Skeleton
| BoardView (errorBanner : option string) (region : PostsRegion)
    (loadMore : bool) (submissionForm : bool).

Section Render.

Variable toLowerCase : string -> string.

Definition render (slug : string) (s : PageState) : View :=
  let filtered := filteredPosts toLowerCase (posts s) (searchTerm s) in
  if loading s then Skeleton
  else
    BoardView
      (if String.eqb (error s) "" then None else Some (error s))
      (if Nat.eqb (length filtered) 0 then EmptyState
       else Cards (map (renderCard slug) filtered))
      (Nat.ltb 0 (length filtered))
      (submissionFormMounted s).

End Render.

(** What a run of the load sequence adds to the trace. *)
Definition toasts (events : list Event) : list string :=
  flat_map (fun e => match e with ToastError msg => [msg] | _ => [] end) events.

Definition issued (events : list Event) : list Query :=
  flat_map (fun e => match e with Issued q => [q] | _ => [] end) events.

(** The project lookup resolves, but to null data without an error. *)
Definition nullProjectClient : SupabaseClient :=
  {| fetch_project := fun _ => Fulfilled (Response.mk None None);
     fetch_board := fetch_board healthyClient;
     fetch_posts := fetch_posts healthyClient |}.

(** The posts request is rejected after project and board resolved. *)
Definition postsRejectedClient : SupabaseClient :=
  {| fetch_project := fetch_project healthyClient;
     fetch_board := fetch_board healthyClient;
     fetch_posts := fun _ => Rejected "fetch failed" |}.

(** * Properties *)

(** ** The view-model mapper *)

Lemma or_zero_number (n : Z) : or_zero (Some n) = n.
Proof.
  unfold or_zero. destruct (Z.eqb_spec n 0) as [-> | _]; reflexivity.
Qed.

Lemma first_count_head (row : Aggregate.t) (rest : list (option Aggregate.t)) :
  first_count (Some (Some row :: rest)) = Aggregate.count row.
Proof. reflexivity. Qed.

Lemma first_count_missing (agg : option (list (option Aggregate.t))) :
  agg = None \/ agg = Some [] -> first_count agg = None.
Proof. intros [-> | ->]; reflexivity. Qed.

(** C1: the mapper is a total function of the raw row.  Its vote count
    (comment count) is the count of the first element of the votes
    (comments) aggregate, and 0 when that aggregate is absent or empty, or
    when its first element carries no count; the scalar fields pass through
    unchanged. *)
Theorem C1_mapper_counts_and_scalars (post : RawRow.t) :
  (Post.id (processPost post) = RawRow.id post
   /\ Post.title (processPost post) = RawRow.title post
   /\ Post.description (processPost post) = RawRow.description post
   /\ Post.author_email (processPost post) = RawRow.author_email post
   /\ Post.status (processPost post) = RawRow.status post
   /\ Post.created_at (processPost post) = RawRow.created_at post)
  /\ (forall n rest,
        RawRow.vote_count post = Some (Some (Aggregate.mk (Some n)) :: rest) ->
        Post.vote_count (processPost post) = n)
  /\ (forall n rest,
        RawRow.comment_count post = Some (Some (Aggregate.mk (Some n)) :: rest) ->
        Post.comment_count (processPost post) = n)
  /\ (RawRow.vote_count post = None \/ RawRow.vote_count post = Some [] ->
      Post.vote_count (processPost post) = 0)
  /\ (RawRow.comment_count post = None \/ RawRow.comment_count post = Some [] ->
      Post.comment_count (processPost post) = 0)
  /\ (forall rest,
        RawRow.vote_count post = Some (None :: rest)
        \/ RawRow.vote_count post = Some (Some (Aggregate.mk None) :: rest) ->
        Post.vote_count (processPost post) = 0)
  /\ (forall rest,
        RawRow.comment_count post = Some (None :: rest)
        \/ RawRow.comment_count post = Some (Some (Aggregate.mk None) :: rest) ->
        Post.comment_count (processPost post) = 0).
Proof.
  split; [repeat split |].
  repeat split; cbn [processPost Post.vote_count Post.comment_count].
  - intros n rest ->. rewrite first_count_head. apply or_zero_number.
  - intros n rest ->. rewrite first_count_head. apply or_zero_number.
  - intros H. rewrite (first_count_missing _ H). reflexivity.
  - intros H. rewrite (first_count_missing _ H). reflexivity.
  - intros rest [-> | ->]; reflexivity.
  - intros rest [-> | ->]; reflexivity.
Qed.

Lemma C1_mapper_witness :
  RawRow.vote_count sampleRow
    = Some (Some (Aggregate.mk (Some 7)) :: [])
  /\ Post.vote_count (processPost sampleRow) = 7.
Proof.
  split; [reflexivity |].
  apply (proj1 (proj2 (C1_mapper_counts_and_scalars sampleRow)) 7 []).
  reflexivity.
Defined.

(** C9: whatever the raw row holds, the mapped post reports
    [user_voted = false]; so does every post of a mapped result set. *)
Theorem C9_user_voted_false (post : RawRow.t) (postsData : option (list RawRow.t)) :
  Post.user_voted (processPost post) = false
  /\ Forall (fun p => Post.user_voted p = false) (processedPosts postsData).
Proof.
  split; [reflexivity |].
  destruct postsData as [rows |]; cbn [processedPosts]; [| constructor].
  induction rows as [| r rows IH]; cbn [map]; constructor; [reflexivity | exact IH].
Qed.

(** ** The posts query *)

Lemma postsQuery_filters (board_id statusFilter sortBy : string) :
  filters (postsQuery board_id statusFilter sortBy)
  = ([FilterEq "board_id" board_id; FilterIsNull "duplicate_of"]
     ++ (if String.eqb statusFilter "all" then []
         else [FilterEq "status" statusFilter]))%list.
Proof.
  unfold postsQuery.
  destruct (String.eqb statusFilter "all");
    destruct (String.eqb sortBy "votes");
    destruct (String.eqb sortBy "newest");
    destruct (String.eqb sortBy "oldest"); reflexivity.
Qed.

Lemma postsQuery_orders (board_id statusFilter sortBy : string) :
  orders (postsQuery board_id statusFilter sortBy)
  = if String.eqb sortBy "votes" then [("vote_count", false)]
    else if String.eqb sortBy "newest" then [("created_at", false)]
    else if String.eqb sortBy "oldest" then [("created_at", true)]
    else [].
Proof.
  unfold postsQuery.
  destruct (String.eqb statusFilter "all");
    destruct (String.eqb sortBy "votes");
    destruct (String.eqb sortBy "newest");
    destruct (String.eqb sortBy "oldest"); reflexivity.
Qed.

(** ** The vote-change callback *)

Lemma onVoteChange_lookup (postId : string) (newCount : Z) (userVoted : bool)
    (prev : list Post.t) (i : nat) :
  onVoteChange postId newCount userVoted prev !! i
  = (fun p => if String.eqb (Post.id p) postId
              then patchVote newCount userVoted p else p) <$> prev !! i.
Proof. unfold onVoteChange. apply (list_lookup_fmap _ prev i). Qed.

Lemma onVoteChange_ids (postId : string) (newCount : Z) (userVoted : bool)
    (prev : list Post.t) :
  map Post.id (onVoteChange postId newCount userVoted prev) = map Post.id prev.
Proof.
  unfold onVoteChange. rewrite map_map. apply map_ext.
  intros p. destruct (String.eqb (Post.id p) postId); reflexivity.
Qed.

(** C10: a vote change for an id that no post of the list carries leaves
    the list as it was. *)
Theorem C10_unknown_id_noop (postId : string) (newCount : Z) (userVoted : bool)
    (prev : list Post.t) :
  ~ In postId (map Post.id prev) ->
  onVoteChange postId newCount userVoted prev = prev.
Proof.
  induction prev as [| p prev IH]; intros Hnot; [reflexivity |].
  cbn [onVoteChange map] in *.
  destruct (String.eqb_spec (Post.id p) postId) as [Heq | Hne].
  - exfalso. apply Hnot. left. exact Heq.
  - f_equal. apply IH. intros Hin. apply Hnot. right. exact Hin.
Qed.

Lemma C10_unknown_id_witness :
  ~ In "p9" (map Post.id samplePosts)
  /\ onVoteChange "p9" 5 true samplePosts = samplePosts.
Proof.
  assert (H : ~ In "p9" (map Post.id samplePosts)).
  { cbn. intros [H | [H | []]]; discriminate H. }
  split; [exact H | exact (C10_unknown_id_noop "p9" 5 true samplePosts H)].
Defined.

(** C8: a vote change for an id carried by a post of the list keeps the
    length of the list and the order of its posts, leaves every post with
    another id as it was, and changes, in the posts with that id, the fields
    [vote_count] and [user_voted] only. *)
Theorem C8_vote_change_frame (postId : string) (newCount : Z) (userVoted : bool)
    (prev : list Post.t) :
  In postId (map Post.id prev) ->
  let next := onVoteChange postId newCount userVoted prev in
  length next = length prev
  /\ map Post.id next = map Post.id prev
  /\ (forall i p, prev !! i = Some p -> Post.id p <> postId -> next !! i = Some p)
  /\ (forall i p, prev !! i = Some p -> Post.id p = postId ->
        exists p', next !! i = Some p'
          /\ Post.vote_count p' = newCount
          /\ Post.user_voted p' = userVoted
          /\ Post.id p' = Post.id p
          /\ Post.title p' = Post.title p
          /\ Post.description p' = Post.description p
          /\ Post.author_email p' = Post.author_email p
          /\ Post.status p' = Post.status p
          /\ Post.created_at p' = Post.created_at p
          /\ Post.comment_count p' = Post.comment_count p)
  /\ (exists i p, prev !! i = Some p /\ Post.id p = postId
        /\ next !! i = Some (patchVote newCount userVoted p)).
Proof.
  intros Hin next. subst next.
  split; [apply length_map |].
  split; [apply onVoteChange_ids |].
  split; [| split].
  - intros i p Hp Hne. rewrite onVoteChange_lookup, Hp. cbn.
    destruct (String.eqb_spec (Post.id p) postId); [contradiction | reflexivity].
  - intros i p Hp Heq. exists (patchVote newCount userVoted p).
    rewrite onVoteChange_lookup, Hp. cbn.
    destruct (String.eqb_spec (Post.id p) postId); [| contradiction].
    repeat split.
  - apply in_map_iff in Hin. destruct Hin as (p & Heq & Hp).
    apply list_elem_of_In, list_elem_of_lookup in Hp. destruct Hp as (i & Hp).
    exists i, p. split; [exact Hp |]. split; [exact Heq |].
    rewrite onVoteChange_lookup, Hp. cbn.
    destruct (String.eqb_spec (Post.id p) postId); [reflexivity | contradiction].
Qed.

Lemma C8_vote_change_witness :
  In "p1" (map Post.id samplePosts)
  /\ length (onVoteChange "p1" 5 true samplePosts) = length samplePosts.
Proof.
  assert (H : In "p1" (map Post.id samplePosts)) by (left; reflexivity).
  split; [exact H |].
  exact (proj1 (C8_vote_change_frame "p1" 5 true samplePosts H)).
Defined.

(** ** The load sequence *)

Lemma finally_clears_loading (body : M unit) (handler : string -> M unit) (w : World) :
  loading (state (snd (try_catch_finally body handler (setLoading false) w))) = false.
Proof.
  unfold try_catch_finally.
  destruct (body w) as [[[] | | e] w1].
  - reflexivity.
  - reflexivity.
  - destruct (handler e w1) as [c w2]. reflexivity.
Qed.

Lemma load_clears_loading (supabase : option SupabaseClient) (slug : string)
    (w : World) :
  loading (state (load supabase slug w)) = false.
Proof.
  unfold load, loadProjectAndPosts.
  destruct supabase as [client |].
  - unfold bind at 1, get. apply finally_clears_loading.
  - reflexivity.
Qed.

(** Unfolding the sequence one answer at a time. *)
Ltac step_load :=
  unfold load, loadProjectAndPosts, try_catch_finally, bind, await, emit,
    get, ret, throw, return_, toast_error, console_error, router_push,
    property_of, setProject, setBoardId, setLoading, setPosts, modify;
  cbn [state trace fst snd].

Ltac flatten_trace := cbn [state trace fst snd]; rewrite <- ?app_assoc; cbn [app].

(** When project and board resolve, the three queries are issued in turn,
    the last one built from the filter and sort order of the state. *)
Lemma load_issues_postsQuery (supabase : SupabaseClient) (slug : string)
    (w : World) (p : Project.t) (b : Board.t) :
  fetch_project supabase (projectQuery slug)
    = Fulfilled (Response.mk (Some p) None) ->
  fetch_board supabase (boardQuery (Project.id p))
    = Fulfilled (Response.mk (Some b) None) ->
  exists rest,
    trace (load (Some supabase) slug w)
    = (trace w
       ++ [Issued (projectQuery slug);
           Issued (boardQuery (Project.id p));
           Issued (postsQuery (Board.id b) (statusFilter (state w)) (sortBy (state w)))]
       ++ rest)%list.
Proof.
  intros Hproject Hboard. step_load.
  rewrite Hproject. cbn. rewrite Hboard. cbn.
  destruct (fetch_posts supabase _) as [r | reason]; cbn.
  - destruct (Response.error r); cbn; flatten_trace; eexists; reflexivity.
  - flatten_trace. eexists. reflexivity.
Qed.

(** C3: the posts query carries the predicate [status = statusFilter]
    exactly when the status filter is not ['all']; with ['all'] it carries
    no predicate on [status].  This is the query the load sequence issues
    once project and board have resolved. *)
Theorem C3_status_predicate (board_id filterValue sortValue : string) :
  (filterValue <> "all" ->
     filters (postsQuery board_id filterValue sortValue)
     = [FilterEq "board_id" board_id; FilterIsNull "duplicate_of";
        FilterEq "status" filterValue])
  /\ (filterValue = "all" ->
        filters (postsQuery board_id filterValue sortValue)
        = [FilterEq "board_id" board_id; FilterIsNull "duplicate_of"]
        /\ forall value,
             ~ In (FilterEq "status" value)
                  (filters (postsQuery board_id filterValue sortValue)))
  /\ (forall supabase slug w p b,
        fetch_project supabase (projectQuery slug)
          = Fulfilled (Response.mk (Some p) None) ->
        fetch_board supabase (boardQuery (Project.id p))
          = Fulfilled (Response.mk (Some b) None) ->
        statusFilter (state w) = filterValue ->
        sortBy (state w) = sortValue ->
        Board.id b = board_id ->
        In (Issued (postsQuery board_id filterValue sortValue))
           (trace (load (Some supabase) slug w))).
Proof.
  split; [| split].
  - intros Hne. rewrite postsQuery_filters.
    destruct (String.eqb_spec filterValue "all"); [contradiction | reflexivity].
  - intros ->. rewrite postsQuery_filters. cbn. split; [reflexivity |].
    intros value [H | [H | []]]; discriminate H.
  - intros supabase slug w p b Hproject Hboard <- <- <-.
    destruct (load_issues_postsQuery supabase slug w p b Hproject Hboard)
      as (rest & ->).
    apply in_or_app. right. cbn. auto.
Qed.

Lemma C3_status_predicate_witness :
  "planned" <> "all"
  /\ filters (postsQuery "b1" "planned" "votes")
     = [FilterEq "board_id" "b1"; FilterIsNull "duplicate_of";
        FilterEq "status" "planned"].
Proof.
  assert (H : "planned" <> "all") by discriminate.
  split; [exact H |].
  exact (proj1 (C3_status_predicate "b1" "planned" "votes") H).
Defined.

(** C4: the ordering of the posts query follows [sortBy]: ['votes'] asks
    for descending [vote_count], ['newest'] for descending [created_at],
    ['oldest'] for ascending [created_at], and any other value adds no
    ordering.  This is the query the load sequence issues. *)
Theorem C4_ordering (board_id filterValue sortValue : string) :
  (sortValue = "votes" ->
     orders (postsQuery board_id filterValue sortValue) = [("vote_count", false)])
  /\ (sortValue = "newest" ->
        orders (postsQuery board_id filterValue sortValue) = [("created_at", false)])
  /\ (sortValue = "oldest" ->
        orders (postsQuery board_id filterValue sortValue) = [("created_at", true)])
  /\ (sortValue <> "votes" -> sortValue <> "newest" -> sortValue <> "oldest" ->
        orders (postsQuery board_id filterValue sortValue) = [])
  /\ (forall supabase slug w p b,
        fetch_project supabase (projectQuery slug)
          = Fulfilled (Response.mk (Some p) None) ->
        fetch_board supabase (boardQuery (Project.id p))
          = Fulfilled (Response.mk (Some b) None) ->
        statusFilter (state w) = filterValue ->
        sortBy (state w) = sortValue ->
        Board.id b = board_id ->
        In (Issued (postsQuery board_id filterValue sortValue))
           (trace (load (Some supabase) slug w))).
Proof.
  rewrite postsQuery_orders.
  split; [| split; [| split; [| split]]].
  - intros ->. reflexivity.
  - intros ->. reflexivity.
  - intros ->. reflexivity.
  - intros Hv Hn Ho.
    destruct (String.eqb_spec sortValue "votes"); [contradiction |].
    destruct (String.eqb_spec sortValue "newest"); [contradiction |].
    destruct (String.eqb_spec sortValue "oldest"); [contradiction | reflexivity].
  - intros supabase slug w p b Hproject Hboard <- <- <-.
    destruct (load_issues_postsQuery supabase slug w p b Hproject Hboard)
      as (rest & ->).
    apply in_or_app. right. cbn. auto.
Qed.

Lemma C4_ordering_witness :
  "trending" <> "votes" /\ "trending" <> "newest" /\ "trending" <> "oldest"
  /\ orders (postsQuery "b1" "all" "trending") = [].
Proof.
  assert (Hv : "trending" <> "votes") by discriminate.
  assert (Hn : "trending" <> "newest") by discriminate.
  assert (Ho : "trending" <> "oldest") by discriminate.
  split; [exact Hv |]. split; [exact Hn |]. split; [exact Ho |].
  exact (proj1 (proj2 (proj2 (proj2 (C4_ordering "b1" "all" "trending")))) Hv Hn Ho).
Defined.

(** C5: when the posts query returns an error, the 'Error loading posts'
    toast is shown and the posts of the state stay as they were; and
    whatever the client is and answers (no client, any failure, a rejected
    request, success), the sequence ends with the loading flag false. *)
Theorem C5_posts_error_and_loading (supabase : SupabaseClient) (slug : string)
    (w : World) (p : Project.t) (b : Board.t)
    (r : Response.t (list RawRow.t)) (e : PgError) :
  fetch_project supabase (projectQuery slug)
    = Fulfilled (Response.mk (Some p) None) ->
  fetch_board supabase (boardQuery (Project.id p))
    = Fulfilled (Response.mk (Some b) None) ->
  fetch_posts supabase
    (postsQuery (Board.id b) (statusFilter (state w)) (sortBy (state w)))
    = Fulfilled r ->
  Response.error r = Some e ->
  (trace (load (Some supabase) slug w)
   = (trace w
      ++ [Issued (projectQuery slug);
          Issued (boardQuery (Project.id p));
          Issued (postsQuery (Board.id b) (statusFilter (state w)) (sortBy (state w)));
          ConsoleError "Error loading posts:";
          ToastError "Error loading posts"])%list
   /\ posts (state (load (Some supabase) slug w)) = posts (state w))
  /\ (forall client slug' w', loading (state (load client slug' w')) = false).
Proof.
  intros Hproject Hboard Hposts Herror.
  split; [| intros; apply load_clears_loading].
  step_load. rewrite Hproject. cbn. rewrite Hboard. cbn.
  rewrite Hposts. cbn. rewrite Herror. cbn. flatten_trace.
  split; reflexivity.
Qed.

Lemma C5_posts_error_witness :
  In (ToastError "Error loading posts")
     (trace (load (Some postsErrorClient) "acme" loadedWorld))
  /\ posts (state (load (Some postsErrorClient) "acme" loadedWorld)) = samplePosts
  /\ loading (state (load (Some rejectingClient) "acme" loadedWorld)) = false.
Proof.
  destruct (C5_posts_error_and_loading postsErrorClient "acme" loadedWorld
              sampleProject sampleBoard (Response.mk None (Some transportError))
              transportError eq_refl eq_refl eq_refl eq_refl)
    as [[Htrace Hposts] Hloading].
  split; [| split].
  - rewrite Htrace. cbn. auto 10.
  - exact Hposts.
  - apply Hloading.
Defined.

(** C6: when the project lookup returns an error, or finds no row (which
    [.single()] reports as an error), the sequence shows 'Project not
    found', navigates to the root route and stops: the project state is not
    set, and no query but the project lookup is issued. *)
Theorem C6_project_not_found (supabase : SupabaseClient) (slug : string)
    (w : World) (r : Response.t Project.t) :
  fetch_project supabase (projectQuery slug) = Fulfilled r ->
  Response.error r <> None \/ r = respond_single (Rows []) ->
  let w' := load (Some supabase) slug w in
  trace w'
  = (trace w
     ++ [Issued (projectQuery slug); ToastError "Project not found"; RouterPush "/"])%list
  /\ project (state w') = project (state w)
  /\ boardId (state w') = boardId (state w)
  /\ posts (state w') = posts (state w)
  /\ (forall q, In (Issued q) (trace w') ->
        In (Issued q) (trace w) \/ q = projectQuery slug).
Proof.
  intros Hproject Hcase w'.
  assert (Herr : exists e, Response.error r = Some e).
  { destruct Hcase as [Hne | ->].
    - destruct (Response.error r) as [e |]; [eauto | contradiction].
    - cbn. eauto. }
  destruct Herr as (e & Herr).
  assert (Htrace : trace w'
    = (trace w ++ [Issued (projectQuery slug); ToastError "Project not found";
                   RouterPush "/"])%list).
  { subst w'. step_load. rewrite Hproject. cbn. rewrite Herr. cbn.
    flatten_trace. reflexivity. }
  split; [exact Htrace |].
  repeat split.
  - subst w'. step_load. rewrite Hproject. cbn. rewrite Herr. reflexivity.
  - subst w'. step_load. rewrite Hproject. cbn. rewrite Herr. reflexivity.
  - subst w'. step_load. rewrite Hproject. cbn. rewrite Herr. reflexivity.
  - intros q Hin. rewrite Htrace in Hin. apply in_app_or in Hin.
    destruct Hin as [Hin | [Hin | [Hin | [Hin | []]]]].
    + left. exact Hin.
    + right. congruence.
    + discriminate Hin.
    + discriminate Hin.
Qed.

Lemma C6_project_not_found_witness :
  fetch_project noProjectClient (projectQuery "acme")
    = Fulfilled (respond_single (Rows []))
  /\ trace (load (Some noProjectClient) "acme" initialWorld)
     = [Issued (projectQuery "acme"); ToastError "Project not found"; RouterPush "/"]
  /\ project (state (load (Some noProjectClient) "acme" initialWorld)) = None.
Proof.
  pose proof (C6_project_not_found noProjectClient "acme" initialWorld
                (respond_single (Rows [])) eq_refl (or_intror eq_refl)) as H.
  cbv zeta in H. destruct H as (Htrace & Hproject & _).
  split; [reflexivity |]. split; [exact Htrace | exact Hproject].
Defined.

(** C7, as the code has it: when the project resolves and the board lookup
    returns an error or no board, the sequence shows 'Board not found' and
    stops with the project state set and no posts query issued; the board id
    of the state is left as it was.  If it was null before the sequence (as
    on the first load), it is still null, and the submission form is not
    mounted even when the user asks for it. *)
Theorem C7_board_not_found (supabase : SupabaseClient) (slug : string)
    (w : World) (p : Project.t) (rb : Response.t Board.t) :
  fetch_project supabase (projectQuery slug)
    = Fulfilled (Response.mk (Some p) None) ->
  fetch_board supabase (boardQuery (Project.id p)) = Fulfilled rb ->
  Response.error rb <> None \/ Response.data rb = None ->
  let w' := load (Some supabase) slug w in
  trace w'
  = (trace w
     ++ [Issued (projectQuery slug); Issued (boardQuery (Project.id p));
         ToastError "Board not found"])%list
  /\ project (state w') = Some p
  /\ posts (state w') = posts (state w)
  /\ boardId (state w') = boardId (state w)
  /\ (forall q, In (Issued q) (trace w') ->
        In (Issued q) (trace w) \/ table q <> "posts")
  /\ (boardId (state w) = None ->
        boardId (state w') = None
        /\ forall opened,
             submissionFormMounted (setShowPostForm opened (state w')) = false).
Proof.
  intros Hproject Hboard Hcase w'.
  assert (Hrun : w'
    = {| state := state (snd (setLoading false
                    (snd (setProject (Some p) (snd (setLoading true w))))));
         trace := (trace w
                   ++ [Issued (projectQuery slug); Issued (boardQuery (Project.id p));
                       ToastError "Board not found"])%list |}).
  { subst w'. step_load. rewrite Hproject. cbn. rewrite Hboard. cbn.
    destruct rb as [[bd |] [eb |]]; cbn in *;
      try (flatten_trace; reflexivity).
    destruct Hcase as [H | H]; [contradiction | discriminate H]. }
  rewrite Hrun. cbn.
  split; [reflexivity |]. split; [reflexivity |].
  split; [reflexivity |]. split; [reflexivity |].
  split.
  - intros q Hin. apply in_app_or in Hin.
    destruct Hin as [Hin | [Hin | [Hin | [Hin | []]]]].
    + left. exact Hin.
    + right. injection Hin as <-. discriminate.
    + right. injection Hin as <-. discriminate.
    + discriminate Hin.
  - intros Hnull. split; [exact Hnull |].
    intros opened. unfold submissionFormMounted. cbn. rewrite Hnull.
    apply andb_false_r.
Qed.

Lemma C7_board_not_found_witness :
  fetch_project noBoardClient (projectQuery "acme")
    = Fulfilled (Response.mk (Some sampleProject) None)
  /\ boardId (state initialWorld) = None
  /\ project (state (load (Some noBoardClient) "acme" initialWorld))
     = Some sampleProject
  /\ boardId (state (load (Some noBoardClient) "acme" initialWorld)) = None
  /\ submissionFormMounted
       (setShowPostForm true (state (load (Some noBoardClient) "acme" initialWorld)))
     = false.
Proof.
  pose proof (C7_board_not_found noBoardClient "acme" initialWorld sampleProject
                (respond_single (Failure transportError)) eq_refl eq_refl
                (or_intror eq_refl)) as H.
  cbv zeta in H. destruct H as (_ & Hproject & _ & _ & _ & Hnull).
  destruct (Hnull eq_refl) as [Hboard Hform].
  split; [reflexivity |]. split; [reflexivity |].
  split; [exact Hproject |]. split; [exact Hboard | exact (Hform true)].
Defined.

(** When the load sequence runs again on a page that had loaded before
    (here after the user changed the status filter) and the board lookup
    then fails, the board id of the earlier load is still in the state: it is
    not null, and the submission form mounts when the user asks for it. *)
Lemma C7_reload_counterexample :
  fetch_project noBoardClient (projectQuery "acme")
    = Fulfilled (Response.mk (Some sampleProject) None)
  /\ fetch_board noBoardClient (boardQuery (Project.id sampleProject))
     = Fulfilled (Response.mk None (Some transportError))
  /\ In (ToastError "Board not found")
        (trace (load (Some noBoardClient) "acme" reloadWorld))
  /\ boardId (state (load (Some noBoardClient) "acme" reloadWorld)) = Some "b1"
  /\ boardId (state (load (Some noBoardClient) "acme" reloadWorld)) <> None
  /\ submissionFormMounted
       (setShowPostForm true (state (load (Some noBoardClient) "acme" reloadWorld)))
     = true.
Proof.
  split; [reflexivity |]. split; [reflexivity |].
  split; [vm_compute; auto 10 |]. split; [reflexivity |].
  split; [discriminate | reflexivity].
Qed.

(** ** The search filter *)

Lemma startsWith_spec (needle s : string) :
  startsWith s needle = true <-> exists after, s = needle +:+ after.
Proof.
  revert s. induction needle as [| c needle IH]; intros s; cbn.
  - split; [intros _; exists s; reflexivity | reflexivity].
  - destruct s as [| d s]; cbn [startsWith].
    + split; [discriminate | intros (after & H); discriminate H].
    + rewrite andb_true_iff, IH. split.
      * intros (Hc & after & ->). apply Ascii.eqb_eq in Hc. subst d.
        exists after. reflexivity.
      * intros (after & H). injection H as -> ->.
        split; [apply Ascii.eqb_refl | exists after; reflexivity].
Qed.

Lemma includes_spec (needle s : string) :
  includes s needle = true <-> occurs_in needle s.
Proof.
  unfold occurs_in. induction s as [| d s IH]; cbn [includes].
  - rewrite orb_false_r, startsWith_spec. split.
    + intros (after & H). exists "", after. exact H.
    + intros (before & after & H). destruct before; [| discriminate H].
      exists after. exact H.
  - rewrite orb_true_iff, startsWith_spec, IH. split.
    + intros [(after & H) | (before & after & H)].
      * exists "", after. exact H.
      * exists (String d before), after. cbn. rewrite H. reflexivity.
    + intros (before & after & H). destruct before as [| e before].
      * left. exists after. exact H.
      * right. injection H as -> ->. exists before, after. reflexivity.
Qed.

Lemma includes_empty (s : string) : includes s "" = true.
Proof. destruct s; reflexivity. Qed.

Section SearchProperties.

Variable toLowerCase : string -> string.

(** Lower-casing the empty string gives the empty string. *)
Hypothesis toLowerCase_empty : toLowerCase "" = "".

Lemma matchesSearch_spec (searchTerm : string) (post : Post.t) :
  matchesSearch toLowerCase searchTerm post = true
  <-> search_hit toLowerCase searchTerm post.
Proof.
  unfold matchesSearch, search_hit, contains_ignoring_case.
  rewrite orb_true_iff, includes_spec.
  destruct (Post.description post) as [description |].
  - rewrite includes_spec. split.
    + intros [H | H]; [left; exact H | right; exists description; auto].
    + intros [H | (d & Hd & H)]; [left; exact H |].
      injection Hd as <-. right. exact H.
  - split.
    + intros [H | H]; [left; exact H | discriminate H].
    + intros [H | (d & Hd & _)]; [left; exact H | discriminate Hd].
Qed.

Lemma filteredPosts_In (posts : list Post.t) (searchTerm : string) (post : Post.t) :
  In post (filteredPosts toLowerCase posts searchTerm)
  <-> In post posts /\ search_hit toLowerCase searchTerm post.
Proof.
  unfold filteredPosts. rewrite filter_In, matchesSearch_spec. reflexivity.
Qed.

Lemma filteredPosts_sublist (posts : list Post.t) (searchTerm : string) :
  sublist (filteredPosts toLowerCase posts searchTerm) posts.
Proof.
  unfold filteredPosts. induction posts as [| p posts IH]; cbn [List.filter].
  - constructor.
  - destruct (matchesSearch toLowerCase searchTerm p).
    + apply sublist_skip, IH.
    + apply sublist_cons, IH.
Qed.

(** Every subsequence of hits is a subsequence of the filtered list. *)
Lemma filteredPosts_greatest (posts hits : list Post.t) (searchTerm : string) :
  sublist hits posts ->
  Forall (search_hit toLowerCase searchTerm) hits ->
  sublist hits (filteredPosts toLowerCase posts searchTerm).
Proof.
  unfold filteredPosts.
  induction 1 as [| p hits posts Hsub IH | p hits posts Hsub IH];
    intros Hall; cbn [List.filter].
  - constructor.
  - apply Forall_cons in Hall. destruct Hall as [Hp Hall].
    apply matchesSearch_spec in Hp. rewrite Hp.
    apply sublist_skip, IH, Hall.
  - destruct (matchesSearch toLowerCase searchTerm p).
    + apply sublist_cons, IH, Hall.
    + apply IH, Hall.
Qed.

Lemma filteredPosts_empty_term (posts : list Post.t) :
  filteredPosts toLowerCase posts "" = posts.
Proof.
  unfold filteredPosts. induction posts as [| p posts IH]; cbn [List.filter].
  - reflexivity.
  - unfold matchesSearch at 1. rewrite toLowerCase_empty, includes_empty.
    cbn [orb]. rewrite IH. reflexivity.
Qed.

(** C2: the search filter returns exactly the subsequence of the posts whose
    title or description contains the search term once both are lower-cased:
    it is a subsequence of the posts, it holds a post iff the post is in the
    list and is a hit, and every subsequence of hits is a subsequence of it.
    The empty term keeps every post; a post without description is kept iff
    its title matches; the filter always returns, and evaluating it leaves
    the page state, the posts with it, as it was. *)
Theorem C2_search_filter (fetched : list Post.t) (term : string) :
  sublist (filteredPosts toLowerCase fetched term) fetched
  /\ (forall post,
        In post (filteredPosts toLowerCase fetched term)
        <-> In post fetched /\ search_hit toLowerCase term post)
  /\ (forall hits,
        sublist hits fetched ->
        Forall (search_hit toLowerCase term) hits ->
        sublist hits (filteredPosts toLowerCase fetched term))
  /\ filteredPosts toLowerCase fetched "" = fetched
  /\ (forall post,
        Post.description post = None ->
        (In post (filteredPosts toLowerCase fetched term)
         <-> In post fetched
             /\ contains_ignoring_case toLowerCase (Post.title post) term))
  /\ (forall w,
        renderFilteredPosts toLowerCase w
        = (Normal (filteredPosts toLowerCase (posts (state w))
                     (searchTerm (state w))), w)).
Proof.
  split; [apply filteredPosts_sublist |].
  split; [intros post; apply filteredPosts_In |].
  split; [intros hits; apply filteredPosts_greatest |].
  split; [apply filteredPosts_empty_term |].
  split; [| reflexivity].
  intros post Hnone. rewrite filteredPosts_In.
  unfold search_hit. rewrite Hnone. split.
  - intros (Hin & [H | (d & Hd & _)]); [auto | discriminate Hd].
  - intros (Hin & H). auto.
Qed.

End SearchProperties.

Lemma C2_search_filter_witness :
  asciiToLowerCase "" = ""
  /\ map Post.id (filteredPosts asciiToLowerCase samplePosts "CSV") = ["p2"]
  /\ filteredPosts asciiToLowerCase samplePosts "" = samplePosts.
Proof.
  assert (H : asciiToLowerCase "" = "") by reflexivity.
  split; [exact H |]. split; [reflexivity |].
  exact (proj1 (proj2 (proj2 (proj2
           (C2_search_filter asciiToLowerCase H samplePosts "CSV"))))).
Defined.

(** ** The load sequence on all of its paths *)

(** Running the sequence symbolically on a world given by its components,
    with a case analysis on every answer it looks at. *)
Ltac explicit_world w :=
  destruct w as [[? ? ? ? ? ? ? ? ?] ?];
  cbn [state trace project posts loading error searchTerm statusFilter sortBy
       showPostForm boardId] in *.

Ltac eval_load :=
  cbv beta iota zeta delta
    [load loadProjectAndPosts try_catch_finally bind await emit get ret throw
     return_ toast_error console_error router_push property_of setProject
     setBoardId setLoading setPosts setError modify updatePosts
     state trace fst snd Response.data Response.error
     project posts loading error searchTerm statusFilter sortBy showPostForm
     boardId].

Ltac eval_load_in H :=
  cbv beta iota zeta delta
    [load loadProjectAndPosts try_catch_finally bind await emit get ret throw
     return_ toast_error console_error router_push property_of setProject
     setBoardId setLoading setPosts setError modify updatePosts
     state trace fst snd Response.data Response.error
     project posts loading error searchTerm statusFilter sortBy showPostForm
     boardId] in H.

Ltac split_answers :=
  eval_load;
  repeat (match goal with
          | |- context [fetch_project ?c ?q] =>
              destruct (fetch_project c q) as [[[?p |] [?e |]] | ?reason] eqn:?Hproject
          | |- context [fetch_board ?c ?q] =>
              destruct (fetch_board c q) as [[[?b |] [?e |]] | ?reason] eqn:?Hboard
          | |- context [fetch_posts ?c ?q] =>
              destruct (fetch_posts c q) as [[?rows [?e |]] | ?reason] eqn:?Hposts
          end;
          eval_load).

Ltac split_answers_in H :=
  eval_load_in H;
  repeat (match type of H with
          | context [fetch_project ?c ?q] =>
              destruct (fetch_project c q) as [[[?p |] [?e |]] | ?reason] eqn:?Hproject
          | context [fetch_board ?c ?q] =>
              destruct (fetch_board c q) as [[[?b |] [?e |]] | ?reason] eqn:?Hboard
          | context [fetch_posts ?c ?q] =>
              destruct (fetch_posts c q) as [[?rows [?e |]] | ?reason] eqn:?Hposts
          end;
          eval_load_in H).

(** Running the sequence on answers that are known. *)
Ltac use_answers :=
  repeat (eval_load;
          match goal with
          | H : fetch_project _ _ = _ |- _ => rewrite H
          | H : fetch_board _ _ = _ |- _ => rewrite H
          | H : fetch_posts _ _ = _ |- _ => rewrite H
          end);
  eval_load.

(** The promise of the load sequence is never rejected: whatever the client
    is and answers, the sequence ends by falling off its end or by a
    [return], with every exception caught. *)
Theorem load_never_throws (supabase : option SupabaseClient) (slug : string)
    (w : World) :
  fst (loadProjectAndPosts supabase slug w) = Normal tt
  \/ fst (loadProjectAndPosts supabase slug w) = Return.
Proof.
  explicit_world w. destruct supabase as [client |]; split_answers; auto.
Qed.

(** The load sequence leaves the controls of the page alone: search term,
    status filter, sort order and the flag of the submission form are as
    before on every path.  The inline error is set on the path without a
    client, and on no other. *)
Theorem load_keeps_controls (supabase : option SupabaseClient) (slug : string)
    (w : World) :
  searchTerm (state (load supabase slug w)) = searchTerm (state w)
  /\ statusFilter (state (load supabase slug w)) = statusFilter (state w)
  /\ sortBy (state (load supabase slug w)) = sortBy (state w)
  /\ showPostForm (state (load supabase slug w)) = showPostForm (state w)
  /\ error (state (load supabase slug w))
     = match supabase with
       | Some _ => error (state w)
       | None => "Database connection not available. Please refresh the page."
       end.
Proof.
  explicit_world w. destruct supabase as [client |]; split_answers; repeat split.
Qed.

(** One run shows at most one toast and issues at most three queries.
    Without a client it does nothing outside the page state; with a client
    its first act is the project lookup. *)
Theorem load_at_most_one_toast (supabase : option SupabaseClient) (slug : string)
    (w : World) :
  exists events,
    trace (load supabase slug w) = (trace w ++ events)%list
    /\ (length (toasts events) <= 1)%nat
    /\ (length (issued events) <= 3)%nat
    /\ match supabase with
       | Some _ => hd_error events = Some (Issued (projectQuery slug))
       | None => events = []
       end.
Proof.
  explicit_world w. destruct supabase as [client |]; split_answers;
    rewrite <- ?app_assoc; cbn [app];
    try (eexists; split; [reflexivity |]; cbn; repeat split; lia).
  exists []. rewrite app_nil_r. cbn. repeat split; lia.
Qed.

(** A query on the posts table is issued only after the project and the
    board have both resolved without error, and it is the query built for
    that board from the filter and sort order of the state. *)
Theorem load_posts_query_needs_board (supabase : SupabaseClient) (slug : string)
    (w : World) (q : Query) :
  In (Issued q) (trace (load (Some supabase) slug w)) ->
  ~ In (Issued q) (trace w) ->
  table q = "posts" ->
  exists p b,
    fetch_project supabase (projectQuery slug)
      = Fulfilled (Response.mk (Some p) None)
    /\ fetch_board supabase (boardQuery (Project.id p))
       = Fulfilled (Response.mk (Some b) None)
    /\ q = postsQuery (Board.id b) (statusFilter (state w)) (sortBy (state w)).
Proof.
  explicit_world w. intros Hin Hold Htable. revert Hin.
  split_answers; rewrite <- ?app_assoc; cbn [app]; rewrite in_app_iff; cbn;
    intros [Hin | Hin]; try contradiction;
    repeat match type of Hin with
           | _ \/ _ => destruct Hin as [Hin | Hin]
           | False => contradiction
           | _ = Issued q => injection Hin as Hin; subst q
           | _ = Issued q => discriminate Hin
           end;
    try discriminate Htable;
    eauto.
Qed.

Lemma load_posts_query_needs_board_witness :
  exists p b,
    fetch_project healthyClient (projectQuery "acme")
      = Fulfilled (Response.mk (Some p) None)
    /\ fetch_board healthyClient (boardQuery (Project.id p))
       = Fulfilled (Response.mk (Some b) None)
    /\ postsQuery "b1" "all" "votes"
       = postsQuery (Board.id b) (statusFilter (state initialWorld))
           (sortBy (state initialWorld)).
Proof.
  apply (load_posts_query_needs_board healthyClient "acme" initialWorld
           (postsQuery "b1" "all" "votes")).
  - vm_compute. auto.
  - intros [].
  - reflexivity.
Defined.

(** Running the sequence again, against the same answers, changes nothing
    in the page state. *)
Theorem load_idempotent (supabase : option SupabaseClient) (slug : string)
    (w : World) :
  state (load supabase slug (load supabase slug w))
  = state (load supabase slug w).
Proof.
  explicit_world w. destruct supabase as [client |]; [| reflexivity].
  remember (load (Some client) slug (mkWorld _ _)) as w1 eqn:Hfirst.
  split_answers_in Hfirst; subst w1; use_answers; reflexivity.
Qed.

(** When the three lookups answer without error, the sequence issues its
    three queries and shows no toast; project and board id are set, and the
    posts are replaced wholesale by the mapped rows, in the order the
    backend returned them (none when the data is null).  What the posts
    were before plays no part in the resulting state. *)
Theorem load_success (supabase : SupabaseClient) (slug : string) (w : World)
    (p : Project.t) (b : Board.t) (postsData : option (list RawRow.t)) :
  fetch_project supabase (projectQuery slug)
    = Fulfilled (Response.mk (Some p) None) ->
  fetch_board supabase (boardQuery (Project.id p))
    = Fulfilled (Response.mk (Some b) None) ->
  fetch_posts supabase
    (postsQuery (Board.id b) (statusFilter (state w)) (sortBy (state w)))
    = Fulfilled (Response.mk postsData None) ->
  trace (load (Some supabase) slug w)
  = (trace w
     ++ [Issued (projectQuery slug);
         Issued (boardQuery (Project.id p));
         Issued (postsQuery (Board.id b) (statusFilter (state w)) (sortBy (state w)))])%list
  /\ project (state (load (Some supabase) slug w)) = Some p
  /\ boardId (state (load (Some supabase) slug w)) = Some (Board.id b)
  /\ posts (state (load (Some supabase) slug w)) = processedPosts postsData
  /\ map Post.id (posts (state (load (Some supabase) slug w)))
     = match postsData with
       | Some rows => map RawRow.id rows
       | None => []
       end
  /\ loading (state (load (Some supabase) slug w)) = false
  /\ (forall f,
        state (load (Some supabase) slug
                 {| state := updatePosts f (state w); trace := trace w |})
        = state (load (Some supabase) slug w)).
Proof.
  destruct w as [[pr ps0 ld er st sf sb sh bi] tr].
  cbn [state trace statusFilter sortBy]. intros Hproject Hboard Hposts.
  assert (Hrun : forall ps,
    load (Some supabase) slug
      {| state := {| project := pr; posts := ps; loading := ld; error := er;
                     searchTerm := st; statusFilter := sf; sortBy := sb;
                     showPostForm := sh; boardId := bi |};
         trace := tr |}
    = {| state :=
           {| project := Some p; posts := processedPosts postsData;
              loading := false; error := er; searchTerm := st;
              statusFilter := sf; sortBy := sb; showPostForm := sh;
              boardId := Some (Board.id b) |};
         trace :=
           (tr ++ [Issued (projectQuery slug); Issued (boardQuery (Project.id p));
                   Issued (postsQuery (Board.id b) sf sb)])%list |}).
  { intros ps. use_answers. rewrite <- ?app_assoc. reflexivity. }
  rewrite (Hrun ps0). cbn [state trace project boardId posts loading].
  split; [reflexivity |]. split; [reflexivity |]. split; [reflexivity |].
  split; [reflexivity |]. split.
  - destruct postsData as [rows |]; cbn [processedPosts map]; [| reflexivity].
    rewrite map_map. reflexivity.
  - split; [reflexivity |]. intros f.
    unfold updatePosts.
    cbn [state trace project posts loading error searchTerm statusFilter
         sortBy showPostForm boardId].
    rewrite Hrun. reflexivity.
Qed.

Lemma load_success_witness :
  trace (load (Some healthyClient) "acme" initialWorld)
  = [Issued (projectQuery "acme"); Issued (boardQuery "proj1");
     Issued (postsQuery "b1" "all" "votes")]
  /\ map Post.id (posts (state (load (Some healthyClient) "acme" initialWorld)))
     = ["p1"; "p2"].
Proof.
  destruct (load_success healthyClient "acme" initialWorld sampleProject
              sampleBoard (Some [sampleRow; otherRow]) eq_refl eq_refl eq_refl)
    as (Htrace & _ & _ & _ & Hids & _).
  split; [exact Htrace | exact Hids].
Defined.

(** When a request is rejected, or the project lookup resolves to null
    without an error, the exception is caught: the run ends with the log
    entry and the 'Something went wrong' toast, shows no other toast, keeps
    the posts, and clears the loading flag. *)
Theorem load_exception (supabase : SupabaseClient) (slug : string) (w : World) :
  (exists reason, fetch_project supabase (projectQuery slug) = Rejected reason)
  \/ fetch_project supabase (projectQuery slug) = Fulfilled (Response.mk None None)
  \/ (exists p reason,
        fetch_project supabase (projectQuery slug)
          = Fulfilled (Response.mk (Some p) None)
        /\ fetch_board supabase (boardQuery (Project.id p)) = Rejected reason)
  \/ (exists p b reason,
        fetch_project supabase (projectQuery slug)
          = Fulfilled (Response.mk (Some p) None)
        /\ fetch_board supabase (boardQuery (Project.id p))
           = Fulfilled (Response.mk (Some b) None)
        /\ fetch_posts supabase
             (postsQuery (Board.id b) (statusFilter (state w)) (sortBy (state w)))
           = Rejected reason) ->
  exists events,
    trace (load (Some supabase) slug w)
    = (trace w ++ events
       ++ [ConsoleError "Error:"; ToastError "Something went wrong"])%list
    /\ toasts events = []
    /\ posts (state (load (Some supabase) slug w)) = posts (state w)
    /\ loading (state (load (Some supabase) slug w)) = false.
Proof.
  destruct w as [[pr ps0 ld er st sf sb sh bi] tr].
  cbn [state trace statusFilter sortBy].
  intros [(reason & Hproject)
         | [Hproject
           | [(p & reason & Hproject & Hboard)
             | (p & b & reason & Hproject & Hboard & Hposts)]]];
    use_answers; rewrite <- ?app_assoc; cbn [app].
  - exists [Issued (projectQuery slug)]. repeat split.
  - exists [Issued (projectQuery slug)]. repeat split.
  - exists [Issued (projectQuery slug); Issued (boardQuery (Project.id p))].
    repeat split.
  - exists [Issued (projectQuery slug); Issued (boardQuery (Project.id p));
            Issued (postsQuery (Board.id b) sf sb)].
    repeat split.
Qed.

Lemma load_exception_witness :
  fetch_posts postsRejectedClient
    (postsQuery "b1" (statusFilter (state loadedWorld)) (sortBy (state loadedWorld)))
  = Rejected "fetch failed"
  /\ exists events,
       trace (load (Some postsRejectedClient) "acme" loadedWorld)
       = (trace loadedWorld ++ events
          ++ [ConsoleError "Error:"; ToastError "Something went wrong"])%list
       /\ toasts events = []
       /\ posts (state (load (Some postsRejectedClient) "acme" loadedWorld))
          = posts (state loadedWorld)
       /\ loading (state (load (Some postsRejectedClient) "acme" loadedWorld)) = false.
Proof.
  split; [reflexivity |].
  apply (load_exception postsRejectedClient "acme" loadedWorld).
  right. right. right. exists sampleProject, sampleBoard, "fetch failed".
  repeat split.
Defined.

(** ** Signing out *)

(** Signing out navigates to the root route exactly when the sign-out
    succeeds; a failure is logged and the user stays on the page.  Either
    way the handler ends normally and the page state is untouched. *)
Theorem handleSignOut_outcome (signOut : Awaited unit) (w : World) :
  fst (handleSignOut signOut w) = Normal tt
  /\ state (snd (handleSignOut signOut w)) = state w
  /\ trace (snd (handleSignOut signOut w))
     = (trace w
        ++ [match signOut with
            | Fulfilled _ => RouterPush "/"
            | Rejected _ => ConsoleError "Error signing out:"
            end])%list.
Proof.
  destruct signOut as [u | reason]; cbn; repeat split.
Qed.

(** ** The posts query, whatever the filter and the sort order *)

(** Every posts query reads the posts table as a list, is scoped to the
    board and excludes duplicates by its first two predicates, carries at
    most one more predicate, and asks for at most one ordering. *)
Theorem postsQuery_scope (board_id filterValue sortValue : string) :
  table (postsQuery board_id filterValue sortValue) = "posts"
  /\ single_row (postsQuery board_id filterValue sortValue) = false
  /\ columns (postsQuery board_id filterValue sortValue)
     = "*,vote_count:votes(count),comment_count:comments(count)"
  /\ firstn 2 (filters (postsQuery board_id filterValue sortValue))
     = [FilterEq "board_id" board_id; FilterIsNull "duplicate_of"]
  /\ (length (filters (postsQuery board_id filterValue sortValue)) <= 3)%nat
  /\ (length (orders (postsQuery board_id filterValue sortValue)) <= 1)%nat.
Proof.
  rewrite postsQuery_filters, postsQuery_orders.
  assert (Hrest : table (postsQuery board_id filterValue sortValue) = "posts"
                  /\ single_row (postsQuery board_id filterValue sortValue) = false
                  /\ columns (postsQuery board_id filterValue sortValue)
                     = "*,vote_count:votes(count),comment_count:comments(count)").
  { unfold postsQuery.
    destruct (String.eqb filterValue "all"), (String.eqb sortValue "votes"),
      (String.eqb sortValue "newest"), (String.eqb sortValue "oldest");
      repeat split. }
  destruct Hrest as (Ht & Hs & Hc).
  split; [exact Ht |]. split; [exact Hs |]. split; [exact Hc |].
  destruct (String.eqb filterValue "all"), (String.eqb sortValue "votes"),
    (String.eqb sortValue "newest"), (String.eqb sortValue "oldest");
    cbn; repeat split; lia.
Qed.

(** ** Vote changes in sequence *)

(** Two vote changes for the same post: the later one wins, whatever the
    earlier one reported. *)
Theorem onVoteChange_last_wins (postId : string) (n1 n2 : Z) (v1 v2 : bool)
    (prev : list Post.t) :
  onVoteChange postId n2 v2 (onVoteChange postId n1 v1 prev)
  = onVoteChange postId n2 v2 prev.
Proof.
  unfold onVoteChange. rewrite map_map. apply map_ext. intros p.
  destruct (String.eqb_spec (Post.id p) postId) as [Heq | Hne].
  - cbn [patchVote Post.id]. rewrite Heq, String.eqb_refl. reflexivity.
  - destruct (String.eqb_spec (Post.id p) postId); [contradiction | reflexivity].
Qed.

(** Vote changes for different posts do not interfere: they give the same
    list in either order. *)
Theorem onVoteChange_commute (id1 id2 : string) (n1 n2 : Z) (v1 v2 : bool)
    (prev : list Post.t) :
  id1 <> id2 ->
  onVoteChange id1 n1 v1 (onVoteChange id2 n2 v2 prev)
  = onVoteChange id2 n2 v2 (onVoteChange id1 n1 v1 prev).
Proof.
  intros Hne. unfold onVoteChange. rewrite !map_map. apply map_ext. intros p.
  destruct (String.eqb_spec (Post.id p) id1) as [H1 | H1];
    destruct (String.eqb_spec (Post.id p) id2) as [H2 | H2];
    cbn [patchVote Post.id].
  - congruence.
  - destruct (String.eqb_spec (Post.id p) id1); [| contradiction].
    destruct (String.eqb_spec (Post.id p) id2); [contradiction | reflexivity].
  - destruct (String.eqb_spec (Post.id p) id1); [contradiction |].
    destruct (String.eqb_spec (Post.id p) id2); [reflexivity | contradiction].
  - destruct (String.eqb_spec (Post.id p) id1); [contradiction |].
    destruct (String.eqb_spec (Post.id p) id2); [contradiction | reflexivity].
Qed.

Lemma onVoteChange_commute_witness :
  "p1" <> "p2"
  /\ onVoteChange "p1" 5 true (onVoteChange "p2" 3 false samplePosts)
     = onVoteChange "p2" 3 false (onVoteChange "p1" 5 true samplePosts).
Proof.
  assert (H : "p1" <> "p2") by discriminate.
  split; [exact H |].
  exact (onVoteChange_commute "p1" "p2" 5 3 true false samplePosts H).
Defined.

(** ** The author shown on a card *)

Lemma append_cons (x : ascii) (a b : string) :
  String x a +:+ b = String x (a +:+ b).
Proof. reflexivity. Qed.

Lemma append_assoc (a b c : string) : (a +:+ b) +:+ c = a +:+ b +:+ c.
Proof.
  induction a as [| x a IH]; [reflexivity |].
  rewrite !append_cons, IH. reflexivity.
Qed.

Lemma beforeAt_split (s : string) :
  exists rest,
    s = beforeAt s +:+ rest
    /\ (rest = "" \/ exists domain, rest = String "@" domain).
Proof.
  induction s as [| c s (rest & Hs & Hrest)]; cbn [beforeAt].
  - exists "". split; [reflexivity | left; reflexivity].
  - destruct (Ascii.eqb_spec c "@") as [-> | Hc].
    + exists (String "@" s). split; [reflexivity | right; exists s; reflexivity].
    + exists rest. split; [rewrite append_cons, <- Hs; reflexivity | exact Hrest].
Qed.

Lemma beforeAt_no_at (s : string) : ~ occurs_in "@" (beforeAt s).
Proof.
  induction s as [| c s IH]; cbn [beforeAt]; intros (before & after & H).
  - destruct before; discriminate H.
  - destruct (Ascii.eqb_spec c "@") as [-> | Hc].
    + destruct before; discriminate H.
    + destruct before as [| d before].
      * injection H as Heq _. contradiction.
      * rewrite append_cons in H. injection H as _ H.
        apply IH. exists before, after. exact H.
Qed.

(** The name shown for an author never contains an ['@']: for an e-mail
    address it is the text before the first ['@'] (all of it when there is
    none), so the domain is never shown; without an address, or with the
    empty one, it is 'Anonymous'. *)
Theorem authorName_hides_domain (author_email : option string) :
  ~ occurs_in "@" (authorName author_email)
  /\ match author_email with
     | None => authorName author_email = "Anonymous"
     | Some email =>
         if String.eqb email "" then authorName author_email = "Anonymous"
         else exists rest,
                email = authorName author_email +:+ rest
                /\ (rest = "" \/ exists domain, rest = String "@" domain)
     end.
Proof.
  assert (Hanon : ~ occurs_in "@" "Anonymous").
  { rewrite <- includes_spec. cbn. discriminate. }
  destruct author_email as [email |]; cbn [authorName]; [| split; auto].
  destruct (String.eqb email ""); [split; auto |].
  split; [apply beforeAt_no_at | apply beforeAt_split].
Qed.

(** ** Searching, voting and rendering together *)

Lemma occurs_in_trans (a b c : string) :
  occurs_in a b -> occurs_in b c -> occurs_in a c.
Proof.
  intros (p1 & s1 & ->) (p2 & s2 & ->).
  exists (p2 +:+ p1), (s1 +:+ s2).
  rewrite !append_assoc. reflexivity.
Qed.

Lemma filter_sublist_mono {A : Type} (f g : A -> bool) (l : list A) :
  (forall x, f x = true -> g x = true) ->
  sublist (List.filter f l) (List.filter g l).
Proof.
  intros Hfg. induction l as [| x l IH]; cbn [List.filter]; [constructor |].
  destruct (f x) eqn:Hf.
  - rewrite (Hfg x Hf). apply sublist_skip, IH.
  - destruct (g x); [apply sublist_cons, IH | exact IH].
Qed.

Lemma sublist_map {A B : Type} (f : A -> B) (l1 l2 : list A) :
  sublist l1 l2 -> sublist (map f l1) (map f l2).
Proof.
  induction 1; cbn [map]; [constructor | apply sublist_skip | apply sublist_cons];
    assumption.
Qed.

Lemma append_cancel (a x y : string) : a +:+ x = a +:+ y -> x = y.
Proof.
  induction a as [| c a IH]; intros H; [exact H |].
  rewrite !append_cons in H. injection H as H. apply IH, H.
Qed.

Lemma postRoute_inj (slug id1 id2 : string) :
  postRoute slug id1 = postRoute slug id2 -> id1 = id2.
Proof.
  unfold postRoute. intros H.
  apply append_cancel, append_cancel, append_cancel in H. exact H.
Qed.

Section SearchAndRender.

Variable toLowerCase : string -> string.

(** Typing more narrows the result: when the lower-cased term [short]
    occurs in the lower-cased term [long], every post found for [long] is
    found for [short], in the same order. *)
Theorem search_narrows (fetched : list Post.t) (short long : string) :
  occurs_in (toLowerCase short) (toLowerCase long) ->
  sublist (filteredPosts toLowerCase fetched long)
          (filteredPosts toLowerCase fetched short).
Proof.
  intros Hocc. unfold filteredPosts. apply filter_sublist_mono. intros post.
  rewrite !matchesSearch_spec. unfold search_hit, contains_ignoring_case.
  intros [H | (d & Hd & H)].
  - left. exact (occurs_in_trans _ _ _ Hocc H).
  - right. exists d. split; [exact Hd | exact (occurs_in_trans _ _ _ Hocc H)].
Qed.

(** The case of the search term does not matter: two terms with the same
    lower-casing select the same posts. *)
Theorem search_term_case_blind (fetched : list Post.t) (term1 term2 : string) :
  toLowerCase term1 = toLowerCase term2 ->
  filteredPosts toLowerCase fetched term1 = filteredPosts toLowerCase fetched term2.
Proof.
  intros Heq. unfold filteredPosts. apply filter_ext. intros post.
  unfold matchesSearch. rewrite Heq. reflexivity.
Qed.

(** A vote change never moves a post into or out of the search result:
    filtering the patched list is patching the filtered list. *)
Theorem vote_change_keeps_search_result (postId : string) (newCount : Z)
    (userVoted : bool) (fetched : list Post.t) (term : string) :
  filteredPosts toLowerCase (onVoteChange postId newCount userVoted fetched) term
  = onVoteChange postId newCount userVoted (filteredPosts toLowerCase fetched term).
Proof.
  unfold filteredPosts, onVoteChange.
  induction fetched as [| p fetched IH]; cbn [map List.filter]; [reflexivity |].
  assert (Hsame : matchesSearch toLowerCase term
                    (if String.eqb (Post.id p) postId
                     then patchVote newCount userVoted p else p)
                  = matchesSearch toLowerCase term p).
  { destruct (String.eqb (Post.id p) postId); reflexivity. }
  rewrite Hsame. destruct (matchesSearch toLowerCase term p); cbn [map].
  - rewrite IH. reflexivity.
  - exact IH.
Qed.

(** Once loading is over, the posts region is the empty state, without the
    'Load More' button, exactly when no post of the state is a hit of the
    search term (also when there are posts); otherwise it is one card per
    hit, in order and keyed by post id, with the 'Load More' button. *)
Theorem render_posts_region (slug : string) (s : PageState) :
  loading s = false ->
  let filtered := filteredPosts toLowerCase (posts s) (searchTerm s) in
  let banner := if String.eqb (error s) "" then None else Some (error s) in
  (render toLowerCase slug s
   = BoardView banner EmptyState false (submissionFormMounted s)
   /\ forall post, In post (posts s) ->
        ~ search_hit toLowerCase (searchTerm s) post)
  \/ (render toLowerCase slug s
      = BoardView banner (Cards (map (renderCard slug) filtered)) true
          (submissionFormMounted s)
      /\ map Card.key (map (renderCard slug) filtered) = map Post.id filtered
      /\ exists post, In post (posts s)
           /\ search_hit toLowerCase (searchTerm s) post).
Proof.
  intros Hloading filtered banner. unfold render. rewrite Hloading.
  fold filtered. fold banner.
  destruct filtered as [| hit rest] eqn:Hfiltered; cbn [length Nat.eqb Nat.ltb Nat.leb].
  - left. split; [reflexivity |].
    intros post Hin Hhit.
    assert (Hmem : In post filtered).
    { subst filtered. apply filteredPosts_In. auto. }
    rewrite Hfiltered in Hmem. exact Hmem.
  - right. split; [reflexivity |]. split.
    + rewrite map_map. reflexivity.
    + exists hit. apply filteredPosts_In. fold filtered.
      rewrite Hfiltered. left. reflexivity.
Qed.

(** When the posts of the state have distinct ids, the rendered cards have
    distinct keys and open distinct routes. *)
Theorem card_keys_unique (slug : string) (fetched : list Post.t) (term : string) :
  NoDup (map Post.id fetched) ->
  let cards := map (renderCard slug) (filteredPosts toLowerCase fetched term) in
  NoDup (map Card.key cards) /\ NoDup (map Card.target cards).
Proof.
  intros Hnodup cards.
  assert (Hids : NoDup (map Post.id (filteredPosts toLowerCase fetched term))).
  { apply (sublist_NoDup _ (map Post.id fetched)); [exact Hnodup |].
    apply sublist_map, filteredPosts_sublist. }
  subst cards. rewrite !map_map. cbn [renderCard Card.key Card.target].
  split; [exact Hids |].
  rewrite <- (map_map Post.id (postRoute slug)).
  assert (Hinj : Inj (=) (=) (postRoute slug)).
  { intros id1 id2. apply postRoute_inj. }
  exact (NoDup_fmap_2 (postRoute slug) _ Hids).
Qed.

End SearchAndRender.

Lemma search_narrows_witness :
  occurs_in (asciiToLowerCase "CS") (asciiToLowerCase "csv")
  /\ sublist (filteredPosts asciiToLowerCase samplePosts "csv")
             (filteredPosts asciiToLowerCase samplePosts "CS").
Proof.
  assert (H : occurs_in (asciiToLowerCase "CS") (asciiToLowerCase "csv")).
  { exists "", "v". reflexivity. }
  split; [exact H |].
  exact (search_narrows asciiToLowerCase samplePosts "CS" "csv" H).
Defined.

Lemma search_term_case_blind_witness :
  asciiToLowerCase "CSV" = asciiToLowerCase "csv"
  /\ filteredPosts asciiToLowerCase samplePosts "CSV"
     = filteredPosts asciiToLowerCase samplePosts "csv".
Proof.
  assert (H : asciiToLowerCase "CSV" = asciiToLowerCase "csv") by reflexivity.
  split; [exact H |].
  exact (search_term_case_blind asciiToLowerCase samplePosts "CSV" "csv" H).
Defined.

Lemma render_posts_region_witness :
  loading (setSearchTerm "zebra" (state loadedWorld)) = false
  /\ exists banner form,
       render asciiToLowerCase "acme" (setSearchTerm "zebra" (state loadedWorld))
       = BoardView banner EmptyState false form.
Proof.
  assert (H : loading (setSearchTerm "zebra" (state loadedWorld)) = false)
    by reflexivity.
  split; [exact H |].
  destruct (render_posts_region asciiToLowerCase "acme"
              (setSearchTerm "zebra" (state loadedWorld)) H)
    as [[Hview _] | [Hview _]].
  - eexists _, _. exact Hview.
  - exfalso. vm_compute in Hview. discriminate Hview.
Defined.

Lemma card_keys_unique_witness :
  NoDup (map Post.id samplePosts)
  /\ NoDup (map Card.key
              (map (renderCard "acme")
                 (filteredPosts asciiToLowerCase samplePosts ""))).
Proof.
  assert (H : NoDup (map Post.id samplePosts)).
  { apply (bool_decide_unpack _). vm_compute. exact I. }
  split; [exact H |].
  exact (proj1 (card_keys_unique asciiToLowerCase "acme" samplePosts "" H)).
Defined.
